(** * OTIS_RI content generator: cargo and industry file generation

    A shallow embedding of [src/lib/functions.py] and of the older
    [src/lib/functions_2.py]: the Python string operations the generators
    rely on, the spreadsheet cell values, the per-record template rendering,
    the industry demand/supply resolver, and the file-writing drivers with
    the file system made explicit. *)

From Stdlib Require Import ZArith List Bool Ascii String Lia Permutation.
From Stdlib Require Import DecimalString.
Import ListNotations.

Open Scope string_scope.
Open Scope Z_scope.

Set Warnings "-register-all".

(* ================================================================== *)
(** ** Python strings (ASCII) *)
(* ================================================================== *)

Module PyStr.

(** [str.replace(old, new)]: every non-overlapping occurrence of [old],
    scanning from the left.  [skip] counts the characters of an occurrence
    that has just been matched and still has to be dropped. *)
Fixpoint replace_from (old new : string) (skip : nat) (s : string) : string :=
  match s with
  | EmptyString => EmptyString
  | String c s' =>
      match skip with
      | S k => replace_from old new k s'
      | O =>
          if prefix old s
          then new ++ replace_from old new (Nat.pred (length old)) s'
          else String c (replace_from old new O s')
      end
  end.

(** With an empty [old], Python inserts [new] before every character and
    at the end. *)
Fixpoint intersperse (new s : string) : string :=
  match s with
  | EmptyString => new
  | String c s' => new ++ String c (intersperse new s')
  end.

Definition replace (old new s : string) : string :=
  match old with
  | EmptyString => intersperse new s
  | String _ _ => replace_from old new O s
  end.

(** [old in s] *)
Fixpoint contains (old s : string) : bool :=
  prefix old s ||
  match s with
  | EmptyString => false
  | String _ s' => contains old s'
  end.

Definition lower_ascii (c : ascii) : ascii :=
  let n := nat_of_ascii c in
  if (Nat.leb 65 n && Nat.leb n 90)%bool then ascii_of_nat (n + 32) else c.

(** [str.lower()] *)
Fixpoint lower (s : string) : string :=
  match s with
  | EmptyString => EmptyString
  | String c s' => String (lower_ascii c) (lower s')
  end.

Definition upper_ascii (c : ascii) : ascii :=
  let n := nat_of_ascii c in
  if (Nat.leb 97 n && Nat.leb n 122)%bool then ascii_of_nat (n - 32) else c.

(** [str.upper()] *)
Fixpoint upper (s : string) : string :=
  match s with
  | EmptyString => EmptyString
  | String c s' => String (upper_ascii c) (upper s')
  end.

Definition is_space (c : ascii) : bool :=
  let n := nat_of_ascii c in
  ((Nat.leb 9 n && Nat.leb n 13) || (Nat.leb 28 n && Nat.leb n 32))%bool.

Fixpoint lstrip (s : string) : string :=
  match s with
  | EmptyString => EmptyString
  | String c s' => if is_space c then lstrip s' else s
  end.

Fixpoint rstrip (s : string) : string :=
  match s with
  | EmptyString => EmptyString
  | String c s' =>
      match rstrip s' with
      | EmptyString => if is_space c then EmptyString else String c EmptyString
      | r => String c r
      end
  end.

(** [str.strip()] *)
Definition strip (s : string) : string := rstrip (lstrip s).

(** [sep.join(l)] *)
Fixpoint join (sep : string) (l : list string) : string :=
  match l with
  | [] => EmptyString
  | [x] => x
  | x :: rest => x ++ sep ++ join sep rest
  end.

Definition concat_all (l : list string) : string :=
  fold_right append EmptyString l.

Definition nl : string := String (ascii_of_nat 10) EmptyString.
Definition tab : string := String (ascii_of_nat 9) EmptyString.
Definition tabs4 : string := tab ++ tab ++ tab ++ tab.
Definition tabs7 : string := tabs4 ++ tab ++ tab ++ tab.
Definition dquote : string := String (ascii_of_nat 34) EmptyString.

(** The lines of a text as [readlines()] and iteration over a file give
    them: each line keeps its terminating newline. *)
Fixpoint lines_from (cur : string) (s : string) : list string :=
  match s with
  | EmptyString => match cur with EmptyString => [] | _ => [cur] end
  | String c s' =>
      if Ascii.eqb c (ascii_of_nat 10)
      then (cur ++ nl) :: lines_from EmptyString s'
      else lines_from (cur ++ String c EmptyString) s'
  end.

Definition readlines (s : string) : list string := lines_from EmptyString s.

(** [os.path.join(a, b)] on POSIX paths *)
Definition path_join (a b : string) : string :=
  if prefix "/" b then b
  else match a with
       | EmptyString => b
       | _ => if String.eqb (substring (Nat.pred (length a)) 1 a) "/"
              then a ++ b else a ++ "/" ++ b
       end.

End PyStr.

(* ================================================================== *)
(** ** Cell values *)
(* ================================================================== *)

(** A float is either NaN (the missing-value marker pandas uses for an empty
    cell) or a finite decimal fraction [m * 10^-k].  The numbers typed into a
    workbook print in positional notation, where Python's [repr] gives back
    the shortest decimal expansion; floats that print with an exponent and
    infinities are outside this model. *)
Inductive pyfloat : Type :=
| FNaN
| FDec (m : Z) (k : nat).

(** The scalar values a cell of a row can hold. *)
Inductive cell : Type :=
| CNone
| CBool (b : bool)
| CInt (z : Z)
| CFloat (f : pyfloat)
| CStr (s : string).

(** Values of a record once the derived lists were added, and the values
    read back from the JSON files. *)
Inductive pyval : Type :=
| PCell (c : cell)
| PList (l : list pyval)
| PDict (d : list (string * pyval)).

Module Py.
Import PyStr.

Definition str_Z (z : Z) : string := NilZero.string_of_int (Z.to_int z).

Definition pow10 (k : nat) : Z := 10 ^ Z.of_nat k.

(** The [k] fractional digits of [r / 10^k], most significant first. *)
Fixpoint frac_digits (k : nat) (r : Z) : string :=
  match k with
  | O => EmptyString
  | S k' => frac_digits k' (r / 10) ++ str_Z (r mod 10)
  end.

Fixpoint strip_zeros (s : string) : string :=
  match s with
  | EmptyString => EmptyString
  | String c s' =>
      match strip_zeros s' with
      | EmptyString => if Ascii.eqb c "0"%char then EmptyString else String c EmptyString
      | r => String c r
      end
  end.

Definition str_float (f : pyfloat) : string :=
  match f with
  | FNaN => "nan"
  | FDec m k =>
      let p := pow10 k in
      let fr := strip_zeros (frac_digits k (Z.abs (Z.rem m p))) in
      (if m <? 0 then "-" else "") ++ str_Z (Z.abs (Z.quot m p)) ++ "."
        ++ match fr with EmptyString => "0" | _ => fr end
  end.

(** [str(value)] *)
Definition str (v : cell) : string :=
  match v with
  | CNone => "None"
  | CBool true => "True"
  | CBool false => "False"
  | CInt z => str_Z z
  | CFloat f => str_float f
  | CStr s => s
  end.

(** [int(value)] on a number; [None] stands for the exception Python
    raises (NaN cannot be converted). *)
Definition int_of_num (v : cell) : option Z :=
  match v with
  | CBool b => Some (if b then 1 else 0)
  | CInt z => Some z
  | CFloat (FDec m k) => Some (Z.quot m (pow10 k))
  | _ => None
  end.

(** The numeric value of a cell as a decimal fraction, when it has one. *)
Definition num_of (v : cell) : option (Z * nat) :=
  match v with
  | CBool b => Some (if b then 1 else 0, O)
  | CInt z => Some (z, O)
  | CFloat (FDec m k) => Some (m, k)
  | _ => None
  end.

(** [a == b] on scalars: numbers (booleans included) compare by value, NaN
    equals nothing, strings compare with strings only. *)
Definition eq (a b : cell) : bool :=
  match a, b with
  | CNone, CNone => true
  | CStr s, CStr t => String.eqb s t
  | _, _ =>
      match num_of a, num_of b with
      | Some (m1, k1), Some (m2, k2) => m1 * pow10 k2 =? m2 * pow10 k1
      | _, _ => false
      end
  end.

(** [pd.isna(value)] / [pd.notna(value)] on a scalar *)
Definition isna (v : cell) : bool :=
  match v with
  | CNone | CFloat FNaN => true
  | _ => false
  end.

Definition notna (v : cell) : bool := negb (isna v).

(** [isinstance(value, (int, float))]; [bool] is a subclass of [int]. *)
Definition is_int_float (v : cell) : bool :=
  match v with
  | CBool _ | CInt _ | CFloat _ => true
  | _ => false
  end.

(** [isinstance(value, (int, float, str, bool))] *)
Definition is_scalar (v : pyval) : bool :=
  match v with
  | PCell CNone => false
  | PCell _ => true
  | _ => false
  end.


End Py.

(* ================================================================== *)
(** ** Dictionaries *)
(* ================================================================== *)

(** A Python [dict] keeps its keys in insertion order; assigning to a key
    that is already present keeps the key's position. *)
Module Dict.
Section WithValue.
Context {V : Type}.

Fixpoint get (d : list (string * V)) (k : string) : option V :=
  match d with
  | [] => None
  | (k', v) :: rest => if String.eqb k k' then Some v else get rest k
  end.

Fixpoint set (d : list (string * V)) (k : string) (v : V) : list (string * V) :=
  match d with
  | [] => [(k, v)]
  | (k', v') :: rest =>
      if String.eqb k k' then (k, v) :: rest else (k', v') :: set rest k v
  end.

Definition keys (d : list (string * V)) : list string := map fst d.

Definition mem (d : list (string * V)) (k : string) : bool :=
  match get d k with Some _ => true | None => false end.
End WithValue.
End Dict.

(** One row of a sheet as [to_dict] gives it: column name to cell value. *)
Definition record : Type := list (string * cell).

(** [record.get(key)], [None] when the column is absent. *)
Definition get_cell (r : record) (k : string) : cell :=
  match Dict.get r k with
  | Some v => v
  | None => CNone
  end.

(** [f"_{key}_"] *)
Definition placeholder (key : string) : string := "_" ++ key ++ "_".

(** The files a generator writes, in the order of the writes. *)
Definition writes : Type := list (string * string).

(** [int(value)]: on a string Python parses an optionally signed decimal
    numeral, surrounded by white space, with single underscores allowed
    between digits. *)
Module PyInt.
Import PyStr.

Definition digit_of (c : ascii) : option Z :=
  let n := nat_of_ascii c in
  if (Nat.leb 48 n && Nat.leb n 57)%bool then Some (Z.of_nat (n - 48)) else None.

Fixpoint parse_digits (acc : Z) (after_digit : bool) (s : string) : option Z :=
  match s with
  | EmptyString => if after_digit then Some acc else None
  | String c s' =>
      match digit_of c with
      | Some d => parse_digits (acc * 10 + d) true s'
      | None =>
          if (Ascii.eqb c "_"%char && after_digit)%bool
          then parse_digits acc false s'
          else None
      end
  end.

Definition int_of_str (s : string) : option Z :=
  match strip s with
  | String "+"%char r => parse_digits 0 false r
  | String "-"%char r => option_map Z.opp (parse_digits 0 false r)
  | t => parse_digits 0 false t
  end.

(** [None] is the exception ([ValueError], [TypeError]). *)
Definition int (v : cell) : option Z :=
  match v with
  | CStr s => int_of_str s
  | _ => Py.int_of_num v
  end.
End PyInt.

(** [repr] and [str] of the values of a record. *)
Module PyRepr.
Import PyStr.

Definition hex_digit (n : nat) : ascii :=
  if Nat.ltb n 10 then ascii_of_nat (48 + n) else ascii_of_nat (87 + n).

Definition escape_char (quote c : ascii) : string :=
  let n := nat_of_ascii c in
  if Ascii.eqb c "\"%char then "\\"
  else if Ascii.eqb c quote then String "\"%char (String c EmptyString)
  else if Nat.eqb n 9 then "\t"
  else if Nat.eqb n 10 then "\n"
  else if Nat.eqb n 13 then "\r"
  else if (Nat.ltb n 32 || Nat.eqb n 127)%bool
       then "\x" ++ String (hex_digit (Nat.div n 16))
                       (String (hex_digit (Nat.modulo n 16)) EmptyString)
  else String c EmptyString.

Fixpoint escape (quote : ascii) (s : string) : string :=
  match s with
  | EmptyString => EmptyString
  | String c s' => escape_char quote c ++ escape quote s'
  end.

(** Python quotes with a single quote, unless the string holds a single
    quote and no double quote. *)
Definition repr_str (s : string) : string :=
  let q := if (contains "'" s && negb (contains dquote s))%bool
           then ascii_of_nat 34 else "'"%char in
  String q (escape q s) ++ String q EmptyString.

Definition repr_cell (c : cell) : string :=
  match c with
  | CStr s => repr_str s
  | _ => Py.str c
  end.

Fixpoint repr (v : pyval) : string :=
  match v with
  | PCell c => repr_cell c
  | PList l => "[" ++ join ", " (map repr l) ++ "]"
  | PDict d =>
      "{" ++ join ", "
               (map (fun kv => match kv with
                               | (k, x) => repr_str k ++ ": " ++ repr x
                               end) d)
          ++ "}"
  end.

(** [str(value)] *)
Definition str (v : pyval) : string :=
  match v with
  | PCell c => Py.str c
  | _ => repr v
  end.
End PyRepr.

(** Exceptions: [None] is an exception that reaches the enclosing handler. *)
Definition exc (A : Type) : Type := option A.

Definition bind_exc {A B : Type} (c : exc A) (k : A -> exc B) : exc B :=
  match c with
  | Some a => k a
  | None => None
  end.

Notation "x <- c ;; k" := (bind_exc c (fun x => k))
  (at level 61, c at next level, right associativity).

(* ================================================================== *)
(** ** [src/lib/functions.py] *)
(* ================================================================== *)

Module Functions.
Import PyStr.

(** *** Cargo generators *)

(** The helper nested in [CreateCargoPNMLs]. *)
Definition format_value_for_template (value : cell) : string :=
  if Py.is_int_float value then
    if Py.isna value then EmptyString
    else
      match Py.int_of_num value with
      | Some n => if Py.eq value (CInt n) then Py.str (CInt n) else Py.str value
      | None => Py.str value
      end
  else Py.str value.

(** [str(record.get('include')).lower() == 'true'] *)
Definition included (r : record) : bool :=
  String.eqb (lower (Py.str (get_cell r "include"))) "true".

(** [CreateCargoTable]: [None] when the sheet has no [include] or no
    [cargo_label] column, or when the workbook or the template is
    missing; nothing is written then. *)
Definition column (r : record) (k : string) : option cell := Dict.get r k.

Fixpoint CreateCargoTable_labels (df : list record) : option (list string) :=
  match df with
  | [] => Some []
  | r :: rest =>
      match column r "include", column r "cargo_label", CreateCargoTable_labels rest with
      | Some inc, Some label, Some ls =>
          if String.eqb (lower (Py.str inc)) "true"
          then Some ((tabs4 ++ Py.str label) :: ls)
          else Some ls
      | _, _, _ => None
      end
  end.

Definition CreateCargoTable (sheet : option (list record)) (template : option string)
  : writes :=
  match sheet with
  | None => []
  | Some df =>
      match CreateCargoTable_labels df, template with
      | Some cargo_labels, Some template_content =>
          let cargo_table_data := join ("," ++ nl) cargo_labels in
          [("src/cargo_table.pnml", replace "_cargo_table_" cargo_table_data template_content)]
      | _, _ => []
      end
  end.

(** The per-record substitution loop, with the formatting of a value as a
    parameter: [for key, value in record.items(): content =
    content.replace(f"_{key}_", fmt(value))]. *)
Definition substitute (fmt : cell -> string) (template_content : string) (r : record)
  : string :=
  fold_left
    (fun content kv => replace (placeholder (fst kv)) (fmt (snd kv)) content)
    r template_content.

Definition cargo_item_name (r : record) : string :=
  Py.str (match Dict.get r "cargo_item_name" with
          | Some v => v
          | None => CStr "default_item"
          end).

Definition cargo_output_path (ext : string) (r : record) : string :=
  let item_name := cargo_item_name r in
  let folder_name := replace " " "_" item_name in
  let file_name := replace " " "_" item_name ++ ext in
  path_join (path_join "src/cargo/" folder_name) file_name.

(** The loop over the filtered records: the state is the list of files
    written so far and the combined buffer. *)
Definition cargo_step (fmt : cell -> string) (ext template_content : string)
           (st : writes * string) (r : record) : writes * string :=
  let modified_content := substitute fmt template_content r in
  ((fst st ++ [(cargo_output_path ext r, modified_content)])%list,
   snd st ++ modified_content ++ nl ++ nl).

Definition cargo_generator (fmt : cell -> string) (ext combined_file : string)
           (sheet : option (list record)) (template : option string) : writes :=
  match sheet with
  | None => []
  | Some data =>
      let filtered_data := filter included data in
      match template with
      | None => []
      | Some template_content =>
          let st := fold_left (cargo_step fmt ext template_content) filtered_data
                              ([], EmptyString) in
          (fst st ++ [(combined_file, strip (snd st))])%list
      end
  end.

Definition CreateCargoPNMLs : option (list record) -> option string -> writes :=
  cargo_generator format_value_for_template ".pnml" "src/cargo.pnml".

Definition CreateCargoLNGs : option (list record) -> option string -> writes :=
  cargo_generator Py.str ".lng" "src/cargo_lang.lng".

(** *** Industries *)

(** The entries of [accept_cargo_list], [produce_cargo_list] and
    [demand_customers]: dictionaries the code builds with fixed keys. *)
Record accept_item : Type := {
  accept_cargo : cell;
  accept_cargo_type : cell;
  stock_num : option Z;
  cons_num : option Z
}.

Record produce_item : Type := {
  produce_cargo : cell;
  produce_cargo_type : cell;
  prod_num : option Z;
  demand_num : option Z;
  bias_num : option Z
}.

Record demand_customer : Type := {
  dc_produce_cargo : cell;
  accepted_by : list string;
  dc_demand_num : Z
}.

(** The dictionary stored for one industry: the row of the [industries]
    sheet, then the keys [accept_cargo_list] and [produce_cargo_list] when
    the industry has a sheet of its own, then [demand_customers] once the
    second pass ran.  (The sheet is taken to have no column with one of
    these three names.) *)
Record industry : Type := {
  row : record;
  cargo_lists : option (list accept_item * list produce_item);
  demand_customers : option (list demand_customer)
}.

(** [data.get('accept_cargo_list', [])] and the like *)
Definition accept_cargo_list (data : industry) : list accept_item :=
  match cargo_lists data with Some (a, _) => a | None => [] end.

Definition produce_cargo_list (data : industry) : list produce_item :=
  match cargo_lists data with Some (_, p) => p | None => [] end.

Definition demand_customers_list (data : industry) : list demand_customer :=
  match demand_customers data with Some l => l | None => [] end.

(** [int(value) if pd.notna(value) and isinstance(guard, (int, float))
    else None].  For [stock_num], [cons_num], [prod_num] and [bias_num]
    the source tests the type of the value itself; for [demand_num] it
    tests the type of [prod_num]. *)
Definition quantity (value guard : cell) : exc (option Z) :=
  if (Py.notna value && Py.is_int_float guard)%bool
  then n <- PyInt.int value ;; Some (Some n)
  else Some None.

Definition make_accept_item (row_data : record) : exc accept_item :=
  stock <- quantity (get_cell row_data "stock_num") (get_cell row_data "stock_num") ;;
  cons <- quantity (get_cell row_data "cons_num") (get_cell row_data "cons_num") ;;
  Some {| accept_cargo := get_cell row_data "accept_cargo";
          accept_cargo_type := get_cell row_data "accept_cargo_type";
          stock_num := stock;
          cons_num := cons |}.

Definition make_produce_item (row_data : record) : exc produce_item :=
  prod <- quantity (get_cell row_data "prod_num") (get_cell row_data "prod_num") ;;
  demand <- quantity (get_cell row_data "demand_num") (get_cell row_data "prod_num") ;;
  bias <- quantity (get_cell row_data "bias_num") (get_cell row_data "bias_num") ;;
  Some {| produce_cargo := get_cell row_data "produce_cargo";
          produce_cargo_type := get_cell row_data "produce_cargo_type";
          prod_num := prod;
          demand_num := demand;
          bias_num := bias |}.

(** ['k' in row_data and pd.notna(row_data['k'])] *)
Definition has_value (row_data : record) (k : string) : bool :=
  match Dict.get row_data k with
  | Some v => Py.notna v
  | None => false
  end.

(** The loop over the rows of the industry's own sheet. *)
Definition cargo_row_step (st : list accept_item * list produce_item)
           (row_data : record) : exc (list accept_item * list produce_item) :=
  accepts <- (if has_value row_data "accept_cargo"
              then a <- make_accept_item row_data ;; Some (fst st ++ [a])%list
              else Some (fst st)) ;;
  produces <- (if has_value row_data "produce_cargo"
               then p <- make_produce_item row_data ;; Some (snd st ++ [p])%list
               else Some (snd st)) ;;
  Some (accepts, produces).

Fixpoint fold_exc {A B : Type} (f : A -> B -> exc A) (l : list B) (a : A) : exc A :=
  match l with
  | [] => Some a
  | b :: rest => a' <- f a b ;; fold_exc f rest a'
  end.

Definition read_cargo_sheet (df_industry_data : list record)
  : exc (list accept_item * list produce_item) :=
  fold_exc cargo_row_step df_industry_data ([], []).

(** ['include' in industry_row and str(industry_row['include']).lower()
    == 'true'] *)
Definition row_included (industry_row : record) : bool :=
  match Dict.get industry_row "include" with
  | Some v => String.eqb (lower (Py.str v)) "true"
  | None => false
  end.

(** The name of an included row; the directory of the industry is made
    from it, which raises unless it is a string. *)
Definition industry_name_of (industry_row : record) : exc string :=
  match Dict.get industry_row "industry_item_name" with
  | Some (CStr name) => Some name
  | _ => None
  end.

Definition industry_data_t : Type := list (string * industry).

(** First pass: one step of the loop over the rows of [industries]. *)
Definition load_step (industry_sheets : list (string * list record))
           (industry_data : industry_data_t) (industry_row : record)
  : exc industry_data_t :=
  if row_included industry_row then
    industry_name <- industry_name_of industry_row ;;
    lists <- match Dict.get industry_sheets industry_name with
             | Some df_industry_data =>
                 l <- read_cargo_sheet df_industry_data ;; Some (Some l)
             | None => Some None
             end ;;
    Some (Dict.set industry_data industry_name
                   {| row := industry_row;
                      cargo_lists := lists;
                      demand_customers := None |})
  else Some industry_data.

Definition load_industries (df_industries : list record)
           (industry_sheets : list (string * list record)) : exc industry_data_t :=
  fold_exc (load_step industry_sheets) df_industries [].

(** Second pass: the demand customers.  The scan of one other industry's
    accepted cargos stops at the first entry with the target label; the
    industry counts when the packs are equal. *)
Fixpoint scan_accepted (target_cargo : cell) (same_pack : bool)
         (other_accept_cargo_list : list accept_item) : bool :=
  match other_accept_cargo_list with
  | [] => false
  | other_item :: rest =>
      if Py.eq (accept_cargo other_item) target_cargo
      then same_pack
      else scan_accepted target_cargo same_pack rest
  end.

Definition accepting_step (industry_name : string) (data : industry)
           (target_cargo : cell) (accepting_industries : list string)
           (other : string * industry) : list string :=
  let (other_industry_name, other_data) := other in
  if negb (String.eqb other_industry_name industry_name) then
    if scan_accepted target_cargo
         (Py.eq (get_cell (row data) "industry_pack")
                (get_cell (row other_data) "industry_pack"))
         (accept_cargo_list other_data)
    then (accepting_industries ++ [other_industry_name])%list
    else accepting_industries
  else accepting_industries.

Definition demand_step (industry_data : industry_data_t) (industry_name : string)
           (data : industry) (demand_customers : list demand_customer)
           (item : produce_item) : list demand_customer :=
  let target_cargo := produce_cargo item in
  match demand_num item with
  | Some demand_num =>
      let accepting_industries :=
        fold_left (accepting_step industry_name data target_cargo) industry_data [] in
      (demand_customers ++
         [{| dc_produce_cargo := target_cargo;
             accepted_by := accepting_industries;
             dc_demand_num := demand_num |}])%list
  | None => demand_customers
  end.

Definition resolve_one (industry_data : industry_data_t) (industry_name : string)
           (data : industry) : industry :=
  {| row := row data;
     cargo_lists := cargo_lists data;
     demand_customers :=
       Some (fold_left (demand_step industry_data industry_name data)
                       (produce_cargo_list data) []) |}.

(** The pass runs over the stored industries and assigns the key
    [demand_customers] of each in place; every step reads the store as the
    steps before left it. *)
Definition resolve_step (industry_data : industry_data_t) (industry_name : string)
  : industry_data_t :=
  match Dict.get industry_data industry_name with
  | Some data =>
      Dict.set industry_data industry_name
               (resolve_one industry_data industry_name data)
  | None => industry_data
  end.

Definition resolve (industry_data : industry_data_t) : industry_data_t :=
  fold_left resolve_step (Dict.keys industry_data) industry_data.

(** [data.items()] *)
Definition opt_int (n : option Z) : cell :=
  match n with Some z => CInt z | None => CNone end.

Definition accept_item_dict (item : accept_item) : pyval :=
  PDict [("accept_cargo", PCell (accept_cargo item));
         ("accept_cargo_type", PCell (accept_cargo_type item));
         ("stock_num", PCell (opt_int (stock_num item)));
         ("cons_num", PCell (opt_int (cons_num item)))].

Definition produce_item_dict (item : produce_item) : pyval :=
  PDict [("produce_cargo", PCell (produce_cargo item));
         ("produce_cargo_type", PCell (produce_cargo_type item));
         ("prod_num", PCell (opt_int (prod_num item)));
         ("demand_num", PCell (opt_int (demand_num item)));
         ("bias_num", PCell (opt_int (bias_num item)))].

Definition demand_customer_dict (item : demand_customer) : pyval :=
  PDict [("produce_cargo", PCell (dc_produce_cargo item));
         ("accepted_by", PList (map (fun n => PCell (CStr n)) (accepted_by item)));
         ("demand_num", PCell (CInt (dc_demand_num item)))].

Definition items (data : industry) : list (string * pyval) :=
  (map (fun kv => (fst kv, PCell (snd kv))) (row data)
   ++ match cargo_lists data with
      | Some (a, p) =>
          [("accept_cargo_list", PList (map accept_item_dict a));
           ("produce_cargo_list", PList (map produce_item_dict p))]
      | None => []
      end
   ++ match demand_customers data with
      | Some l => [("demand_customers", PList (map demand_customer_dict l))]
      | None => []
      end)%list.

(** The substitution loop guarded by [isinstance]. *)
Definition substitute_if (substitutable : pyval -> bool) (template_content : string)
           (fields : list (string * pyval)) : string :=
  fold_left
    (fun content kv =>
       if substitutable (snd kv)
       then replace (placeholder (fst kv)) (PyRepr.str (snd kv)) content
       else content)
    fields template_content.

(** An optional number inside an f-string. *)
Definition fmt_opt (n : option Z) : string := Py.str (opt_int n).

Definition accept_cargo_str (l : list accept_item) : string :=
  fold_left
    (fun acc item =>
       acc ++ tabs4 ++ "accept_cargo(" ++ dquote ++ Py.str (accept_cargo item)
           ++ dquote ++ ")," ++ nl)
    l EmptyString.

(** [enumerate(produce_cargo_list)]: the index and the length decide the
    separator. *)
Fixpoint produce_cargo_loop (len : nat) (i : nat) (l : list produce_item)
         (acc : string) : string :=
  match l with
  | [] => acc
  | item :: rest =>
      let acc1 := acc ++ tabs4 ++ "produce_cargo(" ++ dquote
                      ++ Py.str (produce_cargo item) ++ dquote ++ ",0)" in
      let acc2 := if Z.of_nat i <? Z.of_nat len - 1 then acc1 ++ "," ++ nl else acc1 in
      produce_cargo_loop len (S i) rest acc2
  end.

Definition produce_cargo_str (l : list produce_item) : string :=
  produce_cargo_loop (List.length l) O l EmptyString.

Definition cargo_stockpiles_str (l : list accept_item) : string :=
  fold_left
    (fun acc item =>
       match stock_num item with
       | None =>
           acc ++ tabs4 ++ "STORE_PERM (incoming_cargo_waiting(" ++ dquote
               ++ Py.str (accept_cargo item) ++ dquote ++ "),)," ++ nl
       | Some n =>
           acc ++ tabs4 ++ "STORE_PERM (incoming_cargo_waiting(" ++ dquote
               ++ Py.str (accept_cargo item) ++ dquote ++ ")," ++ Py.str_Z n
               ++ ")," ++ nl
       end)
    l EmptyString.

Definition execute_consumption_str (l : list accept_item) : string :=
  fold_left
    (fun acc item =>
       match cons_num item with
       | None => acc ++ tabs4 ++ Py.str (accept_cargo item) ++ ": LOAD_PERM();" ++ nl
       | Some n =>
           acc ++ tabs4 ++ Py.str (accept_cargo item) ++ ": LOAD_PERM("
               ++ Py.str_Z n ++ ");" ++ nl
       end)
    l EmptyString.

(** [data["industry_type"]] raises when the column is absent. *)
Definition industry_type_of (data : industry) : exc cell :=
  Dict.get (row data) "industry_type".

Definition cargo_consumption_str (data : industry) (l : list accept_item) : exc string :=
  fold_exc
    (fun acc item =>
       industry_type <- industry_type_of data ;;
       match cons_num item with
       | None =>
           Some (acc ++ tabs4 ++ "STORE_PERM (" ++ Py.str industry_type ++ "_"
                     ++ Py.str (accept_cargo_type item) ++ "_cargo_consumption_"
                     ++ fmt_opt (stock_num item) ++ "(),)," ++ nl)
       | Some n =>
           Some (acc ++ tabs4 ++ "STORE_PERM (" ++ Py.str industry_type ++ "_"
                     ++ Py.str (accept_cargo_type item) ++ "_cargo_consumption_"
                     ++ fmt_opt (stock_num item) ++ "()," ++ Py.str_Z n ++ ")," ++ nl)
       end)
    l EmptyString.

Definition execute_production_str (l : list produce_item) : string :=
  fold_left
    (fun acc item =>
       match prod_num item with
       | None => acc ++ tabs4 ++ Py.str (produce_cargo item) ++ ": LOAD_PERM();" ++ nl
       | Some n =>
           acc ++ tabs4 ++ Py.str (produce_cargo item) ++ ": LOAD_PERM("
               ++ Py.str_Z n ++ ");" ++ nl
       end)
    l EmptyString.

Definition cargo_production_str (data : industry) (l : list produce_item) : exc string :=
  fold_exc
    (fun acc item =>
       industry_type <- industry_type_of data ;;
       match prod_num item with
       | None =>
           Some (acc ++ tabs4 ++ "STORE_PERM (" ++ Py.str industry_type ++ "_"
                     ++ Py.str (produce_cargo_type item) ++ "_cargo_production(),),"
                     ++ nl)
       | Some n =>
           Some (acc ++ tabs4 ++ "STORE_PERM (" ++ Py.str industry_type ++ "_"
                     ++ Py.str (produce_cargo_type item) ++ "_cargo_production_"
                     ++ Py.str_Z n ++ "()," ++ Py.str_Z n ++ ")," ++ nl)
       end)
    l EmptyString.

Definition supply_competition_str (industry_name : string) : string :=
  tabs4 ++ "STORE_PERM (industry_count(" ++ industry_name ++ "),2),".

Definition demand_customers_step (demand_customers_str : string)
           (item : demand_customer) : string :=
  let accepted_by_list := accepted_by item in
  let demand_num := dc_demand_num item in
  match accepted_by_list with
  | _ :: _ =>
      let accepted_by_list_str :=
        join " + " (map (fun industry => "industry_count(" ++ industry ++ ")")
                        accepted_by_list) in
      demand_customers_str ++ tabs4 ++ "STORE_PERM (" ++ accepted_by_list_str ++ ","
        ++ nl ++ tabs7 ++ Py.str_Z demand_num ++ ")," ++ nl
  | [] => demand_customers_str
  end.

Definition demand_customers_str (l : list demand_customer) : string :=
  fold_left demand_customers_step l EmptyString.

Definition production_bias_str (l : list produce_item) : string :=
  fold_left
    (fun acc item =>
       match bias_num item with
       | None => acc
       | Some n =>
           acc ++ tabs4 ++ "STORE_PERM (transported_last_month_pct(" ++ dquote
               ++ Py.str (produce_cargo item) ++ dquote ++ ")," ++ Py.str_Z n
               ++ ")," ++ nl
       end)
    l EmptyString.

(** The body of the [with] block of the fourth pass. *)
Definition render_industry (industry_name : string) (data : industry)
           (template : string) : exc string :=
  let c0 := substitute_if Py.is_scalar template (items data) in
  let accepts := accept_cargo_list data in
  let produces := produce_cargo_list data in
  let c1 := replace "_accept_cargo_list_" (accept_cargo_str accepts) c0 in
  let c2 := replace "_produce_cargo_list_" (produce_cargo_str produces) c1 in
  let c3 := replace "_cargo_stockpiles_" (cargo_stockpiles_str accepts) c2 in
  let c4 := replace "_execute_consumption_" (execute_consumption_str accepts) c3 in
  consumption <- cargo_consumption_str data accepts ;;
  let c5 := replace "_cargo_consumption_" consumption c4 in
  let c6 := replace "_execute_production_" (execute_production_str produces) c5 in
  production <- cargo_production_str data produces ;;
  let c7 := replace "_cargo_production_" production c6 in
  let c8 := replace "_supply_competition_" (supply_competition_str industry_name) c7 in
  let c9 := replace "_demand_customers_"
                    (demand_customers_str (demand_customers_list data)) c8 in
  Some (replace "_production_bias_" (production_bias_str produces) c9).

(** The template of an industry: the one of its type when that file
    exists, the generic one otherwise. *)
Definition industry_template_file (templates : string -> option string)
           (data : industry) : string :=
  let industry_type :=
    match Dict.get (row data) "industry_type" with
    | Some v => v
    | None => CStr "industry"
    end in
  let pnml_template_file :=
    "src/templates/" ++ Py.str industry_type ++ "_industry_template.pnml" in
  match templates pnml_template_file with
  | Some _ => pnml_template_file
  | None => "src/templates/industry_template.pnml"
  end.

Definition industry_file (base_folder industry_name ext : string) : string :=
  path_join (path_join base_folder industry_name) (industry_name ++ ext).

(** One industry of the fourth pass.  When the template cannot be opened
    nothing is written; when the body raises, the file was already opened
    for writing and stays empty, and the combined text is not extended. *)
Definition pnml_step (templates : string -> option string) (base_folder : string)
           (st : writes * string) (entry : string * industry) : writes * string :=
  let (industry_name, data) := entry in
  let pnml_filepath := industry_file base_folder industry_name ".pnml" in
  match templates (industry_template_file templates data) with
  | None => st
  | Some template =>
      match render_industry industry_name data template with
      | Some pnml_content =>
          ((fst st ++ [(pnml_filepath, pnml_content)])%list,
           snd st ++ pnml_content ++ nl ++ nl)
      | None => ((fst st ++ [(pnml_filepath, EmptyString)])%list, snd st)
      end
  end.

Record industries_output : Type := {
  json_files : list (string * list (string * pyval));
  text_files : writes
}.

(** [CreateIndustries]: [None] when an exception reaches the outer
    handlers, which happens before anything is written.  A JSON file is
    represented by the dictionary dumped into it. *)
Definition CreateIndustries (df_industries : list record)
           (industry_sheets : list (string * list record))
           (templates : string -> option string) (base_folder : string)
  : exc industries_output :=
  loaded <- load_industries df_industries industry_sheets ;;
  let industry_data := resolve loaded in
  let st := fold_left (pnml_step templates base_folder) industry_data
                      ([], EmptyString) in
  Some {| json_files :=
            map (fun entry =>
                   (industry_file base_folder (fst entry) ".json", items (snd entry)))
                industry_data;
          text_files := (fst st ++ [("src/industries.pnml", snd st)])%list |}.

(** *** Industry language files *)


(** [record.get('industry_item_name', 'default_item')], on which
    [replace] is called: anything but a string raises. *)
Definition lng_item_name (r : list (string * pyval)) : exc string :=
  match Dict.get r "industry_item_name" with
  | None => Some "default_item"
  | Some (PCell (CStr s)) => Some s
  | Some _ => None
  end.



(** *** Help texts *)















(** *** The language file *)



End Functions.

(* ================================================================== *)
(** ** [src/lib/functions_2.py] *)
(* ================================================================== *)

Module Functions2.
Import PyStr.

(** [data["include"] == True]; a missing key raises. *)
Definition is_active (data : record) : exc bool :=
  v <- Dict.get data "include" ;; Some (Py.eq v (CBool true)).

(** [{name: data for name, data in cargo.items() if data["include"] ==
    True}] *)
Definition active_cargo (cargo : list (string * record)) : exc (list (string * record)) :=
  Functions.fold_exc
    (fun acc entry =>
       a <- is_active (snd entry) ;;
       Some (if a then (acc ++ [entry])%list else acc))
    cargo [].

(** The elements put into the set [{data["folder"] for ...}], in the
    order of insertion. *)
Definition active_folders (active_cargo_data : list (string * record)) : exc (list cell) :=
  Functions.fold_exc
    (fun acc entry => f <- Dict.get (snd entry) "folder" ;; Some (acc ++ [f])%list)
    active_cargo_data [].

(** The distinct elements of a set, by first insertion. *)
Fixpoint distinct (l : list cell) : list cell :=
  match l with
  | [] => []
  | x :: rest => x :: filter (fun y => negb (Py.eq y x)) (distinct rest)
  end.

(** An iteration order of sets: for every sequence of insertions, some
    enumeration of the distinct elements.  Python fixes none for a set of
    strings; it changes with the hash seed of the run. *)
Definition set_order (iter : list cell -> list cell) : Prop :=
  forall l, Permutation (distinct l) (iter l).

Definition replacement_keys : list string :=
  ["cargo_icon_x"; "cargo_icon_y"; "cargo_ID"; "cargo_colour_number";
   "town_growth_effect"; "town_growth_multiplier"; "is_freight"; "string";
   "cargo_label"; "capacity_multiplier"; "cargo_weight"; "cargo_classes";
   "penalty_lower_bound"; "single_penalty_length"; "price_factor"].

(** The dictionary [replacements]; a key missing from the cargo's data
    raises [KeyError]. *)
Definition replacements (cargo_data : record) : exc (list (string * string)) :=
  Functions.fold_exc
    (fun acc k =>
       v <- Dict.get cargo_data k ;; Some (Dict.set acc (placeholder k) (Py.str v)))
    replacement_keys [].

(** The file of one cargo: the template with [_name_] replaced line by
    line, then, unless a key is missing, the replacements and the removal
    of the lines that contain [none]. *)
Definition cargo_file (template_content : list string) (cargo_name : string)
           (cargo_data : record) : string :=
  let first :=
    concat_all (map (replace "_name_" ("_" ++ cargo_name)) template_content) in
  match replacements cargo_data with
  | None => first
  | Some reps =>
      let data := fold_left (fun d kv => replace (fst kv) (snd kv) d) reps first in
      concat_all (filter (fun line => negb (contains "none" line)) (readlines data))
  end.

Definition cargo_path (cargo_name : string) : string :=
  path_join (path_join "./src/cargo" cargo_name) (cargo_name ++ ".pnml").

Definition include_line (folder : cell) : string :=
  "#include " ++ dquote ++ "src/cargo/" ++ Py.str folder ++ "/" ++ Py.str folder
              ++ ".pnml" ++ dquote.

(** The files read back for the merge. *)
Definition merged_files (files : writes) (active_cargo_data : list (string * record))
  : list string :=
  flat_map (fun entry =>
              match Dict.get files (cargo_path (fst entry)) with
              | Some content => [content]
              | None => []
              end)
           active_cargo_data.

(** [CreateCargoPNMLs]: every cargo of the JSON file gets its file; the
    merged file lists the folders of the active ones in the iteration
    order of the set, then holds the files of the active ones.  [None]
    when a dictionary lacks [include] or [folder]. *)
Definition CreateCargoPNMLs (iter : list cell -> list cell)
           (cargo : option (list (string * record))) (template : option string)
  : exc writes :=
  match cargo with
  | None => Some []
  | Some cargo =>
      active_cargo_data <- active_cargo cargo ;;
      inserted <- active_folders active_cargo_data ;;
      let active_cargo_folders := iter inserted in
      match template with
      | None => Some []
      | Some template =>
          let template_content := readlines template in
          let files :=
            fold_left
              (fun fs entry =>
                 Dict.set fs (cargo_path (fst entry))
                          (cargo_file template_content (fst entry) (snd entry)))
              cargo [] in
          let output_content :=
            (["// Cargo pnml files"]
             ++ map include_line active_cargo_folders
             ++ [EmptyString]
             ++ merged_files files active_cargo_data)%list in
          Some (files ++ [("./src/cargo.pnml", join nl output_content)])%list
      end
  end.

(** The dictionary [replacements] of [CreateCargoLangFiles]: the token and
    the key of the cargo's data it is filled from. *)
Definition lang_tokens : list (string * string) :=
  [("_string_", "string"); ("_str_cargo name_", "str_cargo_name");
   ("_str_cargo_CID_", "str_cargo_CID"); ("_str_cargo_units_", "str_cargo_units");
   ("_str_cargo_short_units_", "str_cargo_short_units")].

Definition lang_replacements (cargo_data : record) : exc (list (string * string)) :=
  Functions.fold_exc
    (fun acc tk =>
       v <- Dict.get cargo_data (snd tk) ;; Some (Dict.set acc (fst tk) (Py.str v)))
    lang_tokens [].

(** The language file of one cargo: [_name_] replaced line by line by the
    upper-cased name, then the replacements unless a key is missing, then,
    in both cases, the removal of the lines that contain [none]. *)
Definition cargo_lang_file (template_content : list string) (cargo_name : string)
           (cargo_data : record) : string :=
  let first :=
    concat_all (map (replace "_name_" ("_" ++ upper cargo_name)) template_content) in
  let data :=
    match lang_replacements cargo_data with
    | None => first
    | Some reps => fold_left (fun d kv => replace (fst kv) (snd kv) d) reps first
    end in
  concat_all (filter (fun line => negb (contains "none" line)) (readlines data)).

Definition cargo_lang_path (cargo_name : string) : string :=
  path_join (path_join "./src/cargo" cargo_name) (cargo_name ++ ".lng").

Definition lang_include_line (folder : cell) : string :=
  "#include " ++ dquote ++ "src/cargo/" ++ Py.str folder ++ "/" ++ Py.str folder
              ++ ".lng" ++ dquote.

Definition merged_lang_files (files : writes) (active_cargo_data : list (string * record))
  : list string :=
  flat_map (fun entry =>
              match Dict.get files (cargo_lang_path (fst entry)) with
              | Some content => [content]
              | None => []
              end)
           active_cargo_data.

(** [CreateCargoLangFiles] *)
Definition CreateCargoLangFiles (iter : list cell -> list cell)
           (cargo : option (list (string * record))) (template : option string)
  : exc writes :=
  match cargo with
  | None => Some []
  | Some cargo =>
      active_cargo_data <- active_cargo cargo ;;
      inserted <- active_folders active_cargo_data ;;
      let active_cargo_folders := iter inserted in
      match template with
      | None => Some []
      | Some template =>
          let template_content := readlines template in
          let files :=
            fold_left
              (fun fs entry =>
                 Dict.set fs (cargo_lang_path (fst entry))
                          (cargo_lang_file template_content (fst entry) (snd entry)))
              cargo [] in
          let output_content :=
            (["# Cargo lng files"]
             ++ map lang_include_line active_cargo_folders
             ++ [EmptyString]
             ++ merged_lang_files files active_cargo_data)%list in
          Some (files ++ [("./src/cargo.lng", join nl output_content)])%list
      end
  end.

End Functions2.

(* ================================================================== *)
(** ** The properties the specification states, as a second reading *)
(* ================================================================== *)

Module Spec.
Import Functions.

(** Section 4.2, steps 2 and 3: [other] is a consumer of the cargo
    produced by the industry [name]: another industry, of the same group,
    with the cargo's label among its accepted cargos. *)
Definition is_consumer (name : string) (data : industry) (cargo_label : cell)
           (other : string * industry) : bool :=
  (negb (String.eqb (fst other) name)
   && Py.eq (get_cell (row data) "industry_pack")
            (get_cell (row (snd other)) "industry_pack")
   && existsb (fun a => Py.eq (accept_cargo a) cargo_label)
              (accept_cargo_list (snd other)))%bool.

(** Section 4.2, step 1: the produced cargo has a quantity. *)
Definition has_quantity (p : produce_item) : bool :=
  match demand_num p with Some _ => true | None => false end.

(** The names of a sequence in the order of their first occurrence. *)
Fixpoint first_occurrences (seen : list string) (l : list string) : list string :=
  match l with
  | [] => seen
  | x :: rest =>
      if existsb (String.eqb x) seen
      then first_occurrences seen rest
      else first_occurrences (seen ++ [x]) rest
  end.
End Spec.

(* ================================================================== *)
(** ** Dictionaries: lemmas *)
(* ================================================================== *)

Section DictFacts.
Context {V : Type}.
Implicit Types (d : list (string * V)) (k : string) (v : V).

Lemma dict_set_absent d k v :
  ~ In k (Dict.keys d) -> Dict.set d k v = (d ++ [(k, v)])%list.
Proof.
  induction d as [|[k' v'] d IH]; simpl; intros Hn; [reflexivity|].
  destruct (String.eqb_spec k k') as [->|Hne].
  - exfalso; apply Hn; now left.
  - rewrite IH; [reflexivity|]. intros Hin; apply Hn; now right.
Qed.

Lemma dict_set_present_keys d k v :
  In k (Dict.keys d) -> Dict.keys (Dict.set d k v) = Dict.keys d.
Proof.
  induction d as [|[k' v'] d IH]; simpl; intros Hin; [contradiction|].
  destruct (String.eqb_spec k k') as [->|Hne]; simpl; [reflexivity|].
  f_equal. apply IH. destruct Hin as [Heq|Hin]; [congruence|exact Hin].
Qed.

Lemma dict_keys_set d k v :
  Dict.keys (Dict.set d k v) =
  if existsb (String.eqb k) (Dict.keys d) then Dict.keys d
  else (Dict.keys d ++ [k])%list.
Proof.
  destruct (existsb (String.eqb k) (Dict.keys d)) eqn:E.
  - apply dict_set_present_keys. apply existsb_exists in E.
    destruct E as [x [Hin Hx]]. apply String.eqb_eq in Hx. now subst.
  - rewrite dict_set_absent.
    + unfold Dict.keys. now rewrite map_app.
    + intros Hin. assert (existsb (String.eqb k) (Dict.keys d) = true) as C.
      { apply existsb_exists. exists k. split; [exact Hin|apply String.eqb_refl]. }
      congruence.
Qed.

Lemma dict_set_nodup d k v :
  NoDup (Dict.keys d) -> NoDup (Dict.keys (Dict.set d k v)).
Proof.
  intros Hnd. rewrite dict_keys_set.
  destruct (existsb (String.eqb k) (Dict.keys d)) eqn:E; [exact Hnd|].
  apply NoDup_app; [exact Hnd|repeat constructor; intros []| ].
  intros x Hin [Hx|[]]. subst x.
  assert (existsb (String.eqb k) (Dict.keys d) = true) as C.
  { apply existsb_exists. exists k. split; [exact Hin|apply String.eqb_refl]. }
  congruence.
Qed.

Lemma dict_get_middle (pre suf : list (string * V)) k v :
  ~ In k (Dict.keys pre) ->
  Dict.get (pre ++ (k, v) :: suf)%list k = Some v.
Proof.
  induction pre as [|[k' v'] pre IH]; simpl; intros Hn.
  - now rewrite String.eqb_refl.
  - destruct (String.eqb_spec k k') as [->|Hne].
    + exfalso; apply Hn; now left.
    + apply IH. intros Hin; apply Hn; now right.
Qed.

Lemma dict_set_middle (pre suf : list (string * V)) k v v' :
  ~ In k (Dict.keys pre) ->
  Dict.set (pre ++ (k, v) :: suf)%list k v' = (pre ++ (k, v') :: suf)%list.
Proof.
  induction pre as [|[k0 v0] pre IH]; simpl; intros Hn.
  - now rewrite String.eqb_refl.
  - destruct (String.eqb_spec k k0) as [->|Hne].
    + exfalso; apply Hn; now left.
    + f_equal. apply IH. intros Hin; apply Hn; now right.
Qed.
End DictFacts.

(* ================================================================== *)
(** ** The resolver *)
(* ================================================================== *)

Section ResolverFacts.
Import Functions.

Lemma scan_accepted_existsb target same_pack l :
  scan_accepted target same_pack l =
  (same_pack && existsb (fun a => Py.eq (accept_cargo a) target) l)%bool.
Proof.
  induction l as [|a l IH]; simpl.
  - now rewrite andb_false_r.
  - destruct (Py.eq (accept_cargo a) target); simpl.
    + now rewrite andb_true_r.
    + exact IH.
Qed.

Lemma accepting_fold name data target l acc :
  fold_left (accepting_step name data target) l acc =
  (acc ++ map fst (filter (Spec.is_consumer name data target) l))%list.
Proof.
  revert acc. induction l as [|[other_name other_data] l IH]; intros acc.
  - simpl. now rewrite app_nil_r.
  - cbn [fold_left filter]. rewrite IH.
    unfold accepting_step, Spec.is_consumer at 2. cbn [fst snd].
    rewrite scan_accepted_existsb.
    destruct (negb (other_name =? name)%string); cbn [andb]; [|reflexivity].
    destruct (Py.eq _ _ && existsb _ _)%bool; [|reflexivity].
    cbn [map fst]. now rewrite <- app_assoc.
Qed.

(** The entry made for a produced cargo that has a quantity. *)
Definition entry_of (industry_data : industry_data_t) (name : string)
           (data : industry) (p : produce_item) : list demand_customer :=
  match demand_num p with
  | Some q =>
      [{| dc_produce_cargo := produce_cargo p;
          accepted_by :=
            map fst (filter (Spec.is_consumer name data (produce_cargo p)) industry_data);
          dc_demand_num := q |}]
  | None => []
  end.

Lemma demand_fold industry_data name data ps acc :
  fold_left (demand_step industry_data name data) ps acc =
  (acc ++ flat_map (entry_of industry_data name data) ps)%list.
Proof.
  revert acc. induction ps as [|p ps IH]; intros acc.
  - simpl. now rewrite app_nil_r.
  - cbn [fold_left flat_map]. rewrite IH. unfold demand_step, entry_of at 2.
    destruct (demand_num p); [|reflexivity].
    rewrite accepting_fold. simpl. now rewrite <- app_assoc.
Qed.

(** What the resolver reads of an industry never changes during the
    pass. *)
Definition same_static (a b : string * industry) : Prop :=
  fst a = fst b /\ row (snd a) = row (snd b) /\ cargo_lists (snd a) = cargo_lists (snd b).

Lemma consumers_static name data target st d :
  Forall2 same_static st d ->
  map fst (filter (Spec.is_consumer name data target) st) =
  map fst (filter (Spec.is_consumer name data target) d).
Proof.
  induction 1 as [|a b st d [Hn [Hr Hc]] _ IH]; [reflexivity|]. simpl.
  assert (Spec.is_consumer name data target a = Spec.is_consumer name data target b) as ->.
  { unfold Spec.is_consumer, accept_cargo_list. now rewrite Hn, Hr, Hc. }
  destruct (Spec.is_consumer name data target b); simpl; congruence.
Qed.

Lemma resolve_one_static st d name data :
  Forall2 same_static st d ->
  resolve_one st name data = resolve_one d name data.
Proof.
  intros H. unfold resolve_one. f_equal. f_equal.
  rewrite !demand_fold. f_equal.
  apply flat_map_ext. intros p. unfold entry_of.
  destruct (demand_num p); [|reflexivity].
  now rewrite (consumers_static _ _ _ _ _ H).
Qed.

Definition resolved_entry (d : industry_data_t) (entry : string * industry)
  : string * industry :=
  (fst entry, resolve_one d (fst entry) (snd entry)).

Lemma resolved_static d pre :
  Forall2 same_static (map (resolved_entry d) pre) pre.
Proof.
  induction pre as [|e pre IH]; simpl; constructor; [|exact IH].
  repeat split.
Qed.

Lemma same_static_refl l : Forall2 same_static l l.
Proof. induction l; constructor; [repeat split|assumption]. Qed.

Lemma resolve_loop d suf :
  forall pre,
    d = (pre ++ suf)%list ->
    NoDup (Dict.keys d) ->
    fold_left resolve_step (Dict.keys suf) (map (resolved_entry d) pre ++ suf)%list =
    map (resolved_entry d) d.
Proof.
  induction suf as [|[name data] suf IH]; intros pre Hd Hnd; simpl.
  - rewrite Hd at 3. now rewrite !app_nil_r.
  - assert (~ In name (Dict.keys (map (resolved_entry d) pre))) as Hfresh.
    { unfold Dict.keys. rewrite map_map. simpl.
      rewrite Hd in Hnd. unfold Dict.keys in Hnd. rewrite map_app in Hnd. simpl in Hnd.
      apply NoDup_remove_2 in Hnd. intros Hin. apply Hnd.
      apply in_or_app. now left. }
    unfold resolve_step at 2.
    rewrite (dict_get_middle _ _ _ _ Hfresh), (dict_set_middle _ _ _ _ _ Hfresh).
    rewrite (resolve_one_static _ d).
    + specialize (IH (pre ++ [(name, data)])%list).
      rewrite map_app, <- !app_assoc in IH. apply IH; [exact Hd|exact Hnd].
    + rewrite Hd. apply Forall2_app; [apply resolved_static|apply same_static_refl].
Qed.

(** On a store with distinct keys the pass gives every industry the
    entries computed from the store the pass started with. *)
Lemma resolve_map d :
  NoDup (Dict.keys d) -> resolve d = map (resolved_entry d) d.
Proof.
  intros Hnd. unfold resolve. apply (resolve_loop d d []); [reflexivity|exact Hnd].
Qed.

Lemma load_step_keys sheets acc r acc' :
  load_step sheets acc r = Some acc' ->
  (NoDup (Dict.keys acc) -> NoDup (Dict.keys acc')) /\
  if row_included r
  then exists name, industry_name_of r = Some name /\
                    Dict.keys acc' = Spec.first_occurrences (Dict.keys acc) [name]
  else acc' = acc.
Proof.
  unfold load_step. destruct (row_included r); [|intros [= <-]; now split].
  destruct (industry_name_of r) as [name|]; simpl; [|discriminate].
  destruct (match Dict.get sheets name with
            | Some df => l <- read_cargo_sheet df ;; Some (Some l)
            | None => Some None
            end) as [lists|]; simpl; [|discriminate].
  intros [= <-]. split.
  - apply dict_set_nodup.
  - exists name. split; [reflexivity|]. rewrite dict_keys_set.
    now destruct (existsb (String.eqb name) (Dict.keys acc)).
Qed.

Lemma first_occurrences_cons seen x l :
  Spec.first_occurrences seen (x :: l) =
  Spec.first_occurrences (Spec.first_occurrences seen [x]) l.
Proof. simpl. now destruct (existsb (String.eqb x) seen). Qed.

Lemma load_keys sheets df :
  forall acc loaded,
    fold_exc (load_step sheets) df acc = Some loaded ->
    (NoDup (Dict.keys acc) -> NoDup (Dict.keys loaded)) /\
    exists names,
      map industry_name_of (filter row_included df) = map Some names /\
      Dict.keys loaded = Spec.first_occurrences (Dict.keys acc) names.
Proof.
  induction df as [|r df IH]; simpl; intros acc loaded H.
  - injection H as <-. split; [auto|]. now exists [].
  - destruct (load_step sheets acc r) as [acc'|] eqn:E; simpl in H; [|discriminate].
    destruct (IH _ _ H) as [Hnd [names [Hnames Hkeys]]].
    destruct (load_step_keys _ _ _ _ E) as [Hnd' Hstep].
    split; [auto|].
    destruct (row_included r).
    + destruct Hstep as [name [Hname Hk]].
      exists (name :: names). split.
      * simpl. now rewrite Hname, Hnames.
      * rewrite first_occurrences_cons, <- Hk. exact Hkeys.
    + subst acc'. now exists names.
Qed.

End ResolverFacts.

Section ResolverTheorem.
Import Functions.

Lemma nodup_filter_keys (f : string * industry -> bool) (l : industry_data_t) :
  NoDup (map fst l) -> NoDup (map fst (filter f l)).
Proof.
  induction l as [|a l IH]; simpl; intros Hnd; [constructor|].
  inversion Hnd as [|x xs Hnotin Hrest]; subst.
  destruct (f a); simpl; [|now apply IH].
  constructor; [|now apply IH].
  intros Hin. apply Hnotin. apply in_map_iff in Hin.
  destruct Hin as [b [Hb Hin]]. apply filter_In in Hin.
  apply in_map_iff. exists b. tauto.
Qed.

Lemma entries_quantities d name data ps :
  map (fun e => (dc_produce_cargo e, Some (dc_demand_num e)))
      (flat_map (entry_of d name data) ps) =
  map (fun p => (produce_cargo p, demand_num p)) (filter Spec.has_quantity ps).
Proof.
  induction ps as [|p ps IH]; [reflexivity|]. simpl.
  rewrite map_app, IH. unfold entry_of at 1, Spec.has_quantity at 2.
  destruct (demand_num p) eqn:E; simpl; [|reflexivity]. now rewrite E.
Qed.

(** C1.  After the resolver ran over the industries loaded from the
    included rows, the store keeps the industries in the order of the
    first occurrence of their names in the input, without duplicates, and
    every industry has a [demand_customers] list with exactly one entry
    per produced cargo whose quantity ([demand_num]) is not null, in the
    order of the produced cargos, carrying the cargo's label and that
    quantity.  The [accepted_by] list of an entry holds, in the order of
    the store and without duplicates, exactly the names of the other
    industries whose [industry_pack] equals (Python [==]) that of the
    producer and whose accepted cargos contain the cargo's label. *)
Theorem resolver_consumers df_industries industry_sheets loaded :
  load_industries df_industries industry_sheets = Some loaded ->
  let industry_data := resolve loaded in
  (exists names,
      map industry_name_of (filter row_included df_industries) = map Some names /\
      Dict.keys industry_data = Spec.first_occurrences [] names) /\
  NoDup (Dict.keys industry_data) /\
  forall name data,
    In (name, data) industry_data ->
    exists entries,
      demand_customers data = Some entries /\
      map (fun e => (dc_produce_cargo e, Some (dc_demand_num e))) entries =
      map (fun p => (produce_cargo p, demand_num p))
          (filter Spec.has_quantity (produce_cargo_list data)) /\
      forall e,
        In e entries ->
        accepted_by e =
        map fst (filter (Spec.is_consumer name data (dc_produce_cargo e)) industry_data) /\
        NoDup (accepted_by e).
Proof.
  intros Hload industry_data.
  destruct (load_keys _ _ _ _ Hload) as [Hnd [names [Hnames Hkeys]]].
  specialize (Hnd (NoDup_nil _)).
  assert (industry_data = map (resolved_entry loaded) loaded) as Hmap
      by (apply resolve_map; exact Hnd).
  assert (Dict.keys industry_data = Dict.keys loaded) as Hk.
  { rewrite Hmap. unfold Dict.keys. rewrite map_map. reflexivity. }
  split; [exists names; split; [exact Hnames|now rewrite Hk]|].
  split; [now rewrite Hk|].
  intros name data Hin. rewrite Hmap in Hin. apply in_map_iff in Hin.
  destruct Hin as [[name0 data0] [Heq Hin0]].
  unfold resolved_entry in Heq. simpl in Heq. injection Heq as -> <-.
  exists (flat_map (entry_of loaded name data0) (produce_cargo_list data0)).
  split; [|split].
  - unfold resolve_one. simpl. now rewrite demand_fold.
  - apply entries_quantities.
  - intros e He. apply in_flat_map in He. destruct He as [p [_ Hp]].
    unfold entry_of in Hp. destruct (demand_num p); [|contradiction].
    destruct Hp as [<-|[]]. simpl. split.
    + rewrite Hmap.
      rewrite (consumers_static _ _ _ _ _ (resolved_static loaded loaded)).
      reflexivity.
    + apply nodup_filter_keys. exact Hnd.
Qed.

(** Strings compare by their characters, so for string-valued packs and
    labels Python's [==] is equality. *)
Lemma py_eq_str (a b : string) : Py.eq (CStr a) (CStr b) = true <-> a = b.
Proof. simpl. apply String.eqb_eq. Qed.

End ResolverTheorem.

(** The example of the specification: A produces X with quantity 50 and Y
    without a quantity, in group G1; B accepts X and Y in group G1; C
    accepts X in group G2. *)
Definition abc_industries : list record :=
  [ [("include", CBool true); ("industry_item_name", CStr "A");
     ("industry_pack", CStr "G1")];
    [("include", CStr "TRUE"); ("industry_item_name", CStr "B");
     ("industry_pack", CStr "G1")];
    [("include", CStr "true"); ("industry_item_name", CStr "C");
     ("industry_pack", CStr "G2")] ].

Definition abc_sheets : list (string * list record) :=
  [ ("A", [ [("produce_cargo", CStr "X"); ("prod_num", CInt 8); ("demand_num", CInt 50)];
            [("produce_cargo", CStr "Y"); ("prod_num", CInt 8);
             ("demand_num", CFloat FNaN)] ]);
    ("B", [ [("accept_cargo", CStr "X")]; [("accept_cargo", CStr "Y")];
            [("accept_cargo", CStr "X")] ]);
    ("C", [ [("accept_cargo", CStr "X")] ]) ].

Example abc_consumers :
  option_map
    (fun d => option_map Functions.demand_customers (Dict.get (Functions.resolve d) "A"))
    (Functions.load_industries abc_industries abc_sheets)
  = Some (Some (Some [ {| Functions.dc_produce_cargo := CStr "X";
                          Functions.accepted_by := ["B"];
                          Functions.dc_demand_num := 50 |} ])).
Proof. vm_compute. reflexivity. Qed.

Lemma resolver_consumers_witness :
  exists loaded,
    Functions.load_industries abc_industries abc_sheets = Some loaded /\
    Dict.keys (Functions.resolve loaded) = ["A"; "B"; "C"] /\
    NoDup (Dict.keys (Functions.resolve loaded)).
Proof.
  eexists. split; [vm_compute; reflexivity|].
  split; [vm_compute; reflexivity|].
  eapply (proj1 (proj2 (resolver_consumers abc_industries abc_sheets _ _))).
  Unshelve. vm_compute. reflexivity.
Defined.

(* ================================================================== *)
(** ** Strings: lemmas *)
(* ================================================================== *)

Section StringFacts.
Import PyStr.

Lemma append_nil_r (s : string) : s ++ "" = s.
Proof. induction s as [|c s IH]; simpl; [reflexivity|now rewrite IH]. Qed.

Lemma append_assoc (a b c : string) : (a ++ b) ++ c = a ++ b ++ c.
Proof. induction a as [|x a IH]; simpl; [reflexivity|now rewrite IH]. Qed.

Lemma fold_left_ext {A B : Type} (f g : A -> B -> A) (l : list B) (a : A) :
  (forall x y, f x y = g x y) -> fold_left f l a = fold_left g l a.
Proof.
  intros H. revert a. induction l as [|b l IH]; intros a; simpl; [reflexivity|].
  now rewrite H, IH.
Qed.

(** A buffer extended in a loop is the concatenation of the pieces. *)
Lemma fold_left_append {A : Type} (f : A -> string) (l : list A) (s : string) :
  fold_left (fun acc x => acc ++ f x) l s = s ++ concat_all (map f l).
Proof.
  revert s. induction l as [|x l IH]; intros s; simpl.
  - now rewrite append_nil_r.
  - rewrite IH. apply append_assoc.
Qed.

Lemma contains_cons_false old c s :
  contains old (String c s) = false ->
  prefix old (String c s) = false /\ contains old s = false.
Proof.
  intros H. change (prefix old (String c s) || contains old s = false)%bool in H.
  now apply orb_false_iff in H.
Qed.

Lemma replace_from_absent old new s :
  contains old s = false -> replace_from old new O s = s.
Proof.
  induction s as [|c s IH]; intros H; [reflexivity|].
  apply contains_cons_false in H. destruct H as [Hp Hc].
  cbn [replace_from]. rewrite Hp. now rewrite (IH Hc).
Qed.

(** [replace] leaves a text without occurrence of [old] as it is. *)
Lemma replace_absent old new s :
  contains old s = false -> replace old new s = s.
Proof.
  destruct old as [|c old]; intros H.
  - destruct s; discriminate H.
  - now apply replace_from_absent.
Qed.

End StringFacts.

(* ================================================================== *)
(** ** The demand-customer block *)
(* ================================================================== *)

Section DemandBlock.
Import PyStr Functions.

(** The entry names at least one accepting industry. *)
Definition has_consumers (e : demand_customer) : bool :=
  match accepted_by e with
  | [] => false
  | _ :: _ => true
  end.

(** The [STORE_PERM] line of an entry: the sum of the industry counts of
    its consumers and, on a continuation line, the demand. *)
Definition demand_line (e : demand_customer) : string :=
  tabs4 ++ "STORE_PERM ("
        ++ join " + " (map (fun industry => "industry_count(" ++ industry ++ ")")
                           (accepted_by e))
        ++ "," ++ nl ++ tabs7 ++ Py.str_Z (dc_demand_num e) ++ ")," ++ nl.

Lemma demand_customers_step_line s e :
  demand_customers_step s e = s ++ (if has_consumers e then demand_line e else "").
Proof.
  unfold demand_customers_step, has_consumers, demand_line.
  destruct (accepted_by e); [now rewrite append_nil_r|reflexivity].
Qed.

Lemma concat_filter_lines (l : list demand_customer) :
  concat_all (map (fun e => if has_consumers e then demand_line e else "") l) =
  concat_all (map demand_line (filter has_consumers l)).
Proof.
  induction l as [|e l IH]; [reflexivity|]. simpl.
  destruct (has_consumers e); simpl; now rewrite IH.
Qed.

Lemma demand_block_lines (l : list demand_customer) :
  demand_customers_str l = concat_all (map demand_line (filter has_consumers l)).
Proof.
  unfold demand_customers_str.
  rewrite (fold_left_ext demand_customers_step
             (fun acc e => acc ++ (if has_consumers e then demand_line e else ""))).
  - rewrite fold_left_append. simpl. apply concat_filter_lines.
  - intros s e. apply demand_customers_step_line.
Qed.

(** C10.  The text put in place of [_demand_customers_] is the
    concatenation of one [STORE_PERM] line for each entry of
    [demand_customers] whose [accepted_by] list is not empty, in the order
    of the entries; the entries without accepting industry contribute
    nothing: alone they give the empty text. *)
Theorem demand_customers_block (l : list demand_customer) :
  demand_customers_str l = concat_all (map demand_line (filter has_consumers l)) /\
  demand_customers_str (filter (fun e => negb (has_consumers e)) l) = "".
Proof.
  split; [apply demand_block_lines|].
  rewrite demand_block_lines.
  assert (filter has_consumers (filter (fun e => negb (has_consumers e)) l) = [])
    as ->; [|reflexivity].
  induction l as [|e l IH]; [reflexivity|]. simpl.
  destruct (has_consumers e) eqn:E; simpl; [exact IH|]. now rewrite E.
Qed.
End DemandBlock.

(* ================================================================== *)
(** ** The quantities of a cargo row *)
(* ================================================================== *)

Section Quantities.
Import Functions.

(** A row of an industry's sheet with a demand of 50 and a text in the
    production column. *)
Definition demand_row (prod : cell) : record :=
  [("produce_cargo", CStr "X"); ("prod_num", prod); ("demand_num", CInt 50)].

(** A quantity guarded by its own cell is null exactly when the cell is
    missing or no number. *)
Lemma quantity_own (v : cell) :
  quantity v v =
  if (Py.notna v && Py.is_int_float v)%bool then option_map Some (Py.int_of_num v)
  else Some None.
Proof.
  unfold quantity. destruct (Py.notna v && Py.is_int_float v)%bool eqn:E; [|reflexivity].
  destruct v as [| b | z | [|m k] | s]; try discriminate E; reflexivity.
Qed.

(** [demand_num] is guarded by the type of [prod_num]: the same
    demand cell, 50, gives a null quantity when the production cell holds a
    text and the quantity 50 when it holds a number; the quantities guarded
    by their own cell ([prod_num] here) do not depend on another cell. *)
Theorem demand_num_depends_on_prod_num :
  option_map demand_num (make_produce_item (demand_row (CStr "n/a"))) = Some None /\
  option_map demand_num (make_produce_item (demand_row (CInt 8))) = Some (Some 50) /\
  option_map prod_num (make_produce_item (demand_row (CStr "n/a"))) = Some None.
Proof. repeat split; vm_compute; reflexivity. Qed.

End Quantities.

(* ================================================================== *)
(** ** The cargo generators *)
(* ================================================================== *)

Section CargoGenerators.
Import PyStr Functions.







End CargoGenerators.

Section Normalizer.
Import PyStr Functions.

(** A cargo row with a missing weight and the whole number 123.0 as id. *)
Definition coal_row : record :=
  [("include", CBool true); ("cargo_item_name", CStr "coal");
   ("weight", CFloat FNaN); ("id", CFloat (FDec 1230 1))].

(** [CreateCargoLNGs] does not use the helper: it substitutes [str(value)], so a
    missing value is written as [nan] and 123.0 keeps its [.0]; the
    formatting helper would have given the empty text and [123]. *)
Lemma cargo_lng_not_normalized :
  CreateCargoLNGs (Some [coal_row]) (Some "w=_weight_ id=_id_") =
  [("src/cargo/coal/coal.lng", "w=nan id=123.0");
   ("src/cargo_lang.lng", "w=nan id=123.0")] /\
  substitute format_value_for_template "w=_weight_ id=_id_" coal_row = "w= id=123".
Proof. split; vm_compute; reflexivity. Qed.


End Normalizer.

(* ================================================================== *)
(** ** The include filter *)
(* ================================================================== *)

Section IncludeFilter.
Import PyStr Functions.

Lemma dict_set_in {V : Type} (d : list (string * V)) k v p c :
  In (p, c) (Dict.set d k v) -> p = k \/ In (p, c) d.
Proof.
  induction d as [|[k' v'] d IH]; simpl.
  - intros [[= <- <-]|[]]. now left.
  - destruct (String.eqb_spec k k') as [->|Hne]; simpl.
    + intros [[= <- <-]|Hin]; [now left|right; now right].
    + intros [Heq|Hin]; [right; now left|].
      destruct (IH Hin) as [->|Hd]; [now left|right; now right].
Qed.









(** The cargo store of the older generator: coal is active, iron is not. *)
Definition two_cargos : list (string * record) :=
  [("coal", [("include", CBool true); ("folder", CStr "coal")]);
   ("iron", [("include", CBool false); ("folder", CStr "iron")])].

(** [CreateCargoPNMLs] of [functions_2.py] filters the merge only: the
    cargo whose [include] is [False] still gets its own file; only the
    merged file leaves it out. *)
Lemma excluded_cargo_gets_file :
  Functions2.CreateCargoPNMLs Functions2.distinct (Some two_cargos) (Some "item_name_") =
  Some [("./src/cargo/coal/coal.pnml", "item_coal");
        ("./src/cargo/iron/iron.pnml", "item_iron");
        ("./src/cargo.pnml",
         "// Cargo pnml files" ++ nl ++ "#include " ++ dquote ++ "src/cargo/coal/coal.pnml"
            ++ dquote ++ nl ++ nl ++ "item_coal")] /\
  included [("include", CBool false); ("folder", CStr "iron")] = false.
Proof. split; vm_compute; reflexivity. Qed.



End IncludeFilter.

(* ================================================================== *)
(** ** Placeholders *)
(* ================================================================== *)

Section Placeholders.
Import PyStr Functions.

(** No placeholder of a field occurs in the text. *)
Definition no_placeholder {V : Type} (fields : list (string * V)) (tpl : string) : Prop :=
  forall k v, In (k, v) fields -> contains (placeholder k) tpl = false.

Lemma substitute_absent fmt tpl (r : record) :
  no_placeholder r tpl -> substitute fmt tpl r = tpl.
Proof.
  unfold substitute. induction r as [|[k v] r IH]; intros H; [reflexivity|].
  cbn [fold_left fst snd]. rewrite replace_absent by (apply (H k v); now left).
  apply IH. intros k' v' Hin. apply (H k' v'). now right.
Qed.

Lemma substitute_if_absent ok tpl (fields : list (string * pyval)) :
  no_placeholder fields tpl -> substitute_if ok tpl fields = tpl.
Proof.
  unfold substitute_if. induction fields as [|[k v] fields IH]; intros H; [reflexivity|].
  cbn [fold_left fst snd].
  assert ((if ok v then replace (placeholder k) (PyRepr.str v) tpl else tpl) = tpl)
    as ->.
  { destruct (ok v); [|reflexivity]. apply replace_absent. apply (H k v). now left. }
  apply IH. intros k' v' Hin. apply (H k' v'). now right.
Qed.

(** The block placeholders of the industry template. *)
Definition block_placeholders : list string :=
  ["_accept_cargo_list_"; "_produce_cargo_list_"; "_cargo_stockpiles_";
   "_execute_consumption_"; "_cargo_consumption_"; "_execute_production_";
   "_cargo_production_"; "_supply_competition_"; "_demand_customers_";
   "_production_bias_"].

Lemma fold_exc_total {A B : Type} (f : A -> B -> exc A) (l : list B) (a : A) :
  (forall x y, f x y <> None) -> fold_exc f l a <> None.
Proof.
  intros Hf. revert a. induction l as [|b l IH]; intros a; simpl; [discriminate|].
  destruct (f a b) as [a'|] eqn:E; simpl; [apply IH|]. now apply Hf in E.
Qed.

Lemma consumption_total data l :
  Dict.get (row data) "industry_type" <> None -> cargo_consumption_str data l <> None.
Proof.
  intros H. apply fold_exc_total. intros acc item. unfold industry_type_of.
  destruct (Dict.get (row data) "industry_type"); [|contradiction]. simpl.
  destruct (cons_num item); discriminate.
Qed.

Lemma production_total data l :
  Dict.get (row data) "industry_type" <> None -> cargo_production_str data l <> None.
Proof.
  intros H. apply fold_exc_total. intros acc item. unfold industry_type_of.
  destruct (Dict.get (row data) "industry_type"); [|contradiction]. simpl.
  destruct (prod_num item); discriminate.
Qed.

Lemma render_industry_absent name data tpl :
  no_placeholder (items data) tpl ->
  forallb (fun b => negb (contains b tpl)) block_placeholders = true ->
  Dict.get (row data) "industry_type" <> None ->
  render_industry name data tpl = Some tpl.
Proof.
  intros Hfields Hblocks Htype. unfold render_industry.
  rewrite (substitute_if_absent _ _ _ Hfields).
  cbn [forallb block_placeholders] in Hblocks.
  repeat match type of Hblocks with
         | (_ && _)%bool = true => apply andb_true_iff in Hblocks;
                                   let H := fresh "Hb" in destruct Hblocks as [H Hblocks]
         end.
  repeat match goal with
         | H : negb _ = true |- _ => apply negb_true_iff in H
         end.
  destruct (cargo_consumption_str data (accept_cargo_list data)) as [cs|] eqn:Ec;
    [|now apply consumption_total in Ec].
  destruct (cargo_production_str data (produce_cargo_list data)) as [ps|] eqn:Ep;
    [|now apply production_total in Ep].
  cbn [bind_exc].
  rewrite (replace_absent _ _ tpl Hb), (replace_absent _ _ tpl Hb0),
    (replace_absent _ _ tpl Hb1), (replace_absent _ _ tpl Hb2),
    (replace_absent _ _ tpl Hb3), (replace_absent _ _ tpl Hb4),
    (replace_absent _ _ tpl Hb5), (replace_absent _ _ tpl Hb6),
    (replace_absent _ _ tpl Hb7), (replace_absent _ _ tpl Hb8).
  reflexivity.
Qed.

End Placeholders.

(* ================================================================== *)
(** ** Templates without placeholders; the scalar pass *)
(* ================================================================== *)

Section VerbatimTemplates.
Import PyStr Functions.

(** X1.  A template in which no placeholder of a field occurs is written
    as it is: by the substitution loop of the cargo generators, by the
    guarded loop of the industry language files and help texts, and, when
    no block placeholder occurs either and the row has an [industry_type],
    by the industry PNML body, which then raises no error. *)
Theorem template_without_placeholders :
  (forall fmt tpl (r : record), no_placeholder r tpl -> substitute fmt tpl r = tpl) /\
  (forall ok tpl (fields : list (string * pyval)),
      no_placeholder fields tpl -> substitute_if ok tpl fields = tpl) /\
  (forall name data tpl,
      no_placeholder (items data) tpl ->
      forallb (fun b => negb (contains b tpl)) block_placeholders = true ->
      Dict.get (row data) "industry_type" <> None ->
      render_industry name data tpl = Some tpl).
Proof.
  split; [exact substitute_absent|].
  split; [exact substitute_if_absent|exact render_industry_absent].
Qed.

Lemma template_without_placeholders_witness :
  no_placeholder [("id", CStr "5")] "weight: _weight_" /\
  substitute Py.str "weight: _weight_" [("id", CStr "5")] = "weight: _weight_".
Proof.
  assert (no_placeholder [("id", CStr "5")] "weight: _weight_") as H.
  { intros k v [[= <- <-]|[]]. vm_compute. reflexivity. }
  split; [exact H|].
  exact (proj1 template_without_placeholders Py.str _ _ H).
Defined.




End VerbatimTemplates.

(* ================================================================== *)
(** ** Quantities: the general statements *)
(* ================================================================== *)

Section QuantityFacts.
Import Functions.





End QuantityFacts.

(* ================================================================== *)
(** ** The resolver pass, repeated; the files of the industries *)
(* ================================================================== *)

Section ResolverPass.
Import PyStr Functions.

Lemma resolve_one_same st d name x data :
  Forall2 same_static st d ->
  row x = row data -> cargo_lists x = cargo_lists data ->
  resolve_one st name x = resolve_one d name data.
Proof.
  intros Hst Hrow Hlists. unfold resolve_one, produce_cargo_list.
  rewrite Hrow, Hlists. f_equal.
  rewrite !demand_fold. f_equal.
  apply flat_map_ext. intros p. unfold entry_of.
  destruct (demand_num p); [|reflexivity].
  rewrite (consumers_static _ _ _ _ _ Hst). do 3 f_equal.
  apply filter_ext. intros other. unfold Spec.is_consumer. now rewrite Hrow.
Qed.

(** X5.  On a store with distinct names, running the resolver a second
    time changes nothing, and the pass keeps the names, their order, the
    rows and the cargo lists of the industries. *)
Theorem resolve_idempotent (d : industry_data_t) :
  NoDup (Dict.keys d) ->
  resolve (resolve d) = resolve d /\
  Forall2 same_static (resolve d) d.
Proof.
  intros Hnd.
  assert (Forall2 same_static (resolve d) d) as Hstatic.
  { rewrite (resolve_map d Hnd). apply resolved_static. }
  split; [|exact Hstatic].
  assert (NoDup (Dict.keys (resolve d))) as Hnd'.
  { rewrite (resolve_map d Hnd). unfold Dict.keys. rewrite map_map. exact Hnd. }
  rewrite (resolve_map (resolve d) Hnd').
  assert (map (resolved_entry (resolve d)) (map (resolved_entry d) d) =
          map (resolved_entry d) d) as Hagain.
  { rewrite map_map. apply map_ext. intros [name data].
    unfold resolved_entry. cbn [fst snd]. f_equal.
    apply resolve_one_same; [exact Hstatic|reflexivity|reflexivity]. }
  rewrite <- (resolve_map d Hnd) in Hagain. exact Hagain.
Qed.

Lemma resolve_idempotent_witness :
  exists d,
    load_industries abc_industries abc_sheets = Some d /\
    NoDup (Dict.keys d) /\
    resolve (resolve d) = resolve d.
Proof.
  destruct (load_industries abc_industries abc_sheets) as [d|] eqn:E.
  - assert (NoDup (Dict.keys d)) as Hnd.
    { apply (proj1 (load_keys _ _ _ _ E)). constructor. }
    exists d. split; [reflexivity|]. split; [exact Hnd|].
    exact (proj1 (resolve_idempotent d Hnd)).
  - vm_compute in E. discriminate E.
Defined.






End ResolverPass.

(* ================================================================== *)
(** ** The industry language files and the directory listing *)
(* ================================================================== *)

Section ListingOrder.
Import PyStr Functions.







End ListingOrder.

(* ================================================================== *)
(** ** The older cargo generator and the order of a set *)
(* ================================================================== *)

Section SetOrder.
Import PyStr.






End SetOrder.

(* ================================================================== *)
(** ** File names and combined files of the cargo generators *)
(* ================================================================== *)

Section CargoFiles.
Import PyStr Functions.

Lemma prefix_space c s : prefix " " (String c s) = Ascii.eqb " "%char c.
Proof.
  cbn [prefix]. destruct (ascii_dec " "%char c) as [<-|Hne].
  - destruct s; reflexivity.
  - symmetry. apply Ascii.eqb_neq. exact Hne.
Qed.

Lemma contains_space_cons c s :
  contains " " (String c s) = (Ascii.eqb " "%char c || contains " " s)%bool.
Proof.
  change (contains " " (String c s))
    with (prefix " " (String c s) || contains " " s)%bool.
  now rewrite prefix_space.
Qed.

Lemma contains_space_app a b :
  contains " " (a ++ b) = (contains " " a || contains " " b)%bool.
Proof.
  induction a as [|c a IH].
  - reflexivity.
  - change (String c a ++ b) with (String c (a ++ b)).
    rewrite !contains_space_cons, IH. apply orb_assoc.
Qed.

Lemma replace_space_clean s : contains " " (replace " " "_" s) = false.
Proof.
  unfold replace. induction s as [|c s IH]; [reflexivity|].
  cbn [replace_from]. rewrite prefix_space.
  destruct (Ascii.eqb " "%char c) eqn:E.
  - cbn [length Nat.pred]. rewrite contains_space_app, IH. reflexivity.
  - rewrite contains_space_cons, E, IH. reflexivity.
Qed.

Lemma path_join_clean a b :
  contains " " a = false -> contains " " b = false ->
  contains " " (path_join a b) = false.
Proof.
  intros Ha Hb. unfold path_join.
  destruct (prefix "/" b); [exact Hb|].
  destruct a as [|c a]; [exact Hb|].
  destruct (String.eqb _ "/").
  - now rewrite contains_space_app, Ha, Hb.
  - now rewrite !contains_space_app, Ha, Hb.
Qed.

(** X9.  The path of a cargo's own file never holds a space, whatever the
    name of the cargo: the spaces of the name are replaced in the folder and
    in the file name. *)
Theorem cargo_paths_without_space (r : record) :
  contains " " (cargo_output_path ".pnml" r) = false /\
  contains " " (cargo_output_path ".lng" r) = false.
Proof.
  unfold cargo_output_path.
  split; apply path_join_clean;
    try (apply path_join_clean; [reflexivity|apply replace_space_clean]);
    now rewrite contains_space_app, replace_space_clean.
Qed.







(** The rows have the columns [CreateCargoTable] reads. *)
Definition has_table_columns (r : record) : Prop :=
  column r "include" <> None /\ column r "cargo_label" <> None.

Lemma cargo_table_labels (df : list record) :
  Forall has_table_columns df ->
  CreateCargoTable_labels df =
  Some (map (fun r => tabs4 ++ Py.str (get_cell r "cargo_label")) (filter included df)).
Proof.
  induction 1 as [|r df [Hinc Hlabel] _ IH]; [reflexivity|].
  cbn [CreateCargoTable_labels filter]. rewrite IH.
  destruct (column r "include") as [inc|] eqn:Ei; [|contradiction].
  destruct (column r "cargo_label") as [label|] eqn:El; [|contradiction].
  assert (included r = String.eqb (lower (Py.str inc)) "true") as ->.
  { unfold included, get_cell. unfold column in Ei. now rewrite Ei. }
  assert (get_cell r "cargo_label" = label) as Hl.
  { unfold get_cell. unfold column in El. now rewrite El. }
  destruct (String.eqb (lower (Py.str inc)) "true"); [|reflexivity].
  cbn [map]. now rewrite Hl.
Qed.

Lemma cargo_table_missing_column (df : list record) :
  Exists (fun r => column r "include" = None \/ column r "cargo_label" = None) df ->
  CreateCargoTable_labels df = None.
Proof.
  induction 1 as [r df [H|H]|r df _ IH]; cbn [CreateCargoTable_labels].
  - now rewrite H.
  - rewrite H. now destruct (column r "include").
  - rewrite IH. destruct (column r "include"); [|reflexivity].
    now destruct (column r "cargo_label").
Qed.

(** X11.  [CreateCargoTable] writes one file: the template with
    [_cargo_table_] replaced by the labels of the included rows, each
    indented by four tabs, joined by a comma and a newline, in the order of
    the sheet; when a column it reads is missing nothing is written. *)
Theorem cargo_table_file (df : list record) (tpl : string) :
  (Forall has_table_columns df ->
   CreateCargoTable (Some df) (Some tpl) =
   [("src/cargo_table.pnml",
     replace "_cargo_table_"
             (join ("," ++ nl)
                   (map (fun r => tabs4 ++ Py.str (get_cell r "cargo_label"))
                        (filter included df)))
             tpl)]) /\
  (Exists (fun r => column r "include" = None \/ column r "cargo_label" = None) df ->
   CreateCargoTable (Some df) (Some tpl) = []).
Proof.
  split; intros H; unfold CreateCargoTable.
  - now rewrite (cargo_table_labels df H).
  - now rewrite (cargo_table_missing_column df H).
Qed.

Lemma cargo_table_file_witness :
  Forall has_table_columns [ [("include", CStr "TRUE"); ("cargo_label", CStr "COAL")];
                             [("include", CBool false); ("cargo_label", CStr "IRON")] ] /\
  CreateCargoTable (Some [ [("include", CStr "TRUE"); ("cargo_label", CStr "COAL")];
                           [("include", CBool false); ("cargo_label", CStr "IRON")] ])
                   (Some "table: _cargo_table_")
  = [("src/cargo_table.pnml", "table: " ++ tabs4 ++ "COAL")].
Proof.
  assert (Forall has_table_columns
                 [ [("include", CStr "TRUE"); ("cargo_label", CStr "COAL")];
                   [("include", CBool false); ("cargo_label", CStr "IRON")] ]) as H.
  { repeat constructor; discriminate. }
  split; [exact H|].
  etransitivity; [exact (proj1 (cargo_table_file _ "table: _cargo_table_") H)|].
  vm_compute. reflexivity.
Defined.

End CargoFiles.

(* ================================================================== *)
(** ** Rows without a help template; the language file *)
(* ================================================================== *)

Section HelpAndLanguage.
Import PyStr Functions.








End HelpAndLanguage.


(* ================================================================== *)
(** ** Lines that contain [none] *)
(* ================================================================== *)

Section NoneLines.
Import PyStr.











End NoneLines.



(* ================================================================== *)
(** ** The stored industries and their JSON files *)
(* ================================================================== *)

Section StoredIndustries.
Import PyStr Functions.

(** What the first pass stores for a name: an included row with that name,
    the cargo lists exactly when the workbook has a sheet of that name, and
    no demand customers yet. *)
Definition stored_from (df : list record) (sheets : list (string * list record))
           (entry : string * industry) : Prop :=
  In (row (snd entry)) df /\
  row_included (row (snd entry)) = true /\
  industry_name_of (row (snd entry)) = Some (fst entry) /\
  (cargo_lists (snd entry) = None <-> Dict.get sheets (fst entry) = None) /\
  demand_customers (snd entry) = None.

Lemma dict_set_forall {V : Type} (P : string * V -> Prop) (d : list (string * V)) k v :
  Forall P d -> P (k, v) -> Forall P (Dict.set d k v).
Proof.
  intros Hd Hkv. apply Forall_forall. intros [p c] Hin.
  destruct (dict_set_in d k v p c Hin) as [->|Hold].
  - induction d as [|[k' v'] d IH]; simpl in Hin.
    + destruct Hin as [[= <-]|[]]. exact Hkv.
    + inversion Hd as [|? ? Hhd Htl]; subst.
      destruct (String.eqb_spec k k') as [->|Hne].
      * destruct Hin as [[= <-]|Hin]; [exact Hkv|].
        rewrite Forall_forall in Htl. now apply Htl.
      * destruct Hin as [[= <- <-]|Hin]; [exact Hhd|now apply IH].
  - rewrite Forall_forall in Hd. now apply Hd.
Qed.

Lemma load_step_stored df sheets acc r acc' :
  In r df ->
  Forall (stored_from df sheets) acc ->
  load_step sheets acc r = Some acc' ->
  Forall (stored_from df sheets) acc'.
Proof.
  intros Hr Hacc. unfold load_step.
  destruct (row_included r) eqn:Hinc; [|now intros [= <-]].
  destruct (industry_name_of r) as [name|] eqn:Hname; simpl; [|discriminate].
  destruct (Dict.get sheets name) as [sheet|] eqn:Hsheet.
  - destruct (read_cargo_sheet sheet) as [l|]; simpl; [|discriminate].
    intros [= <-]. apply dict_set_forall; [exact Hacc|].
    unfold stored_from. simpl. rewrite Hsheet. repeat split; try assumption;
      intros H; discriminate H.
  - simpl. intros [= <-]. apply dict_set_forall; [exact Hacc|].
    unfold stored_from. simpl. rewrite Hsheet. repeat split; assumption.
Qed.

Lemma load_stored df sheets (rows : list record) :
  (forall r, In r rows -> In r df) ->
  forall acc loaded,
    Forall (stored_from df sheets) acc ->
    fold_exc (load_step sheets) rows acc = Some loaded ->
    Forall (stored_from df sheets) loaded.
Proof.
  induction rows as [|r rows IH]; intros Hsub acc loaded Hacc; simpl.
  - now intros [= <-].
  - destruct (load_step sheets acc r) as [acc'|] eqn:E; simpl; [|discriminate].
    apply IH.
    + intros r' Hin. apply Hsub. now right.
    + apply (load_step_stored df sheets acc r acc'); [apply Hsub; now left|exact Hacc|exact E].
Qed.



Lemma dict_get_row_items data k c :
  Dict.get (row data) k = Some c -> Dict.get (items data) k = Some (PCell c).
Proof.
  unfold items. generalize (row data). intros r.
  induction r as [|[k' v'] r IH]; simpl; [discriminate|].
  destruct (String.eqb k k'); [now intros [= ->]|exact IH].
Qed.

Lemma name_of_row r name :
  industry_name_of r = Some name ->
  Dict.get r "industry_item_name" = Some (CStr name).
Proof.
  unfold industry_name_of.
  destruct (Dict.get r "industry_item_name") as [[| | | |s]|]; try discriminate.
  now intros [= ->].
Qed.

(** X16.  The JSON file [CreateIndustries] writes for an industry lies in
    the industry's folder and names the industry under
    [industry_item_name]: [CreateIndustryLNGs] reads from it the name of the
    folder it found the file in. *)
Theorem json_files_name_their_industry df sheets templates base out :
  CreateIndustries df sheets templates base = Some out ->
  forall p d,
    In (p, d) (json_files out) ->
    exists name,
      p = industry_file base name ".json" /\ lng_item_name d = Some name.
Proof.
  unfold CreateIndustries.
  destruct (load_industries df sheets) as [loaded|] eqn:Hload; simpl; [|discriminate].
  intros [= <-] p d Hin. simpl in Hin.
  pose proof (load_stored df sheets df (fun r Hr => Hr) [] loaded (Forall_nil _) Hload)
    as Hstored.
  destruct (load_keys _ _ _ _ Hload) as [Hnd _]. specialize (Hnd (NoDup_nil _)).
  rewrite (resolve_map loaded Hnd), map_map in Hin.
  apply in_map_iff in Hin. destruct Hin as [[name data] [Heq Hentry]].
  cbn [fst snd resolved_entry] in Heq. injection Heq as <- <-.
  rewrite Forall_forall in Hstored.
  destruct (Hstored _ Hentry) as [_ [_ [Hname _]]]. cbn [fst snd] in Hname.
  exists name. split; [reflexivity|].
  unfold lng_item_name.
  rewrite (dict_get_row_items (resolve_one loaded name data) _ (CStr name));
    [reflexivity|]. cbn [row resolve_one]. now apply name_of_row.
Qed.

Lemma json_files_name_their_industry_witness :
  exists out,
    CreateIndustries abc_industries abc_sheets (fun _ => None) "src/industries" = Some out /\
    forall p d,
      In (p, d) (json_files out) ->
      exists name,
        p = industry_file "src/industries" name ".json" /\ lng_item_name d = Some name.
Proof.
  destruct (CreateIndustries abc_industries abc_sheets (fun _ => None) "src/industries")
    as [out|] eqn:E.
  - exists out. split; [reflexivity|].
    exact (json_files_name_their_industry _ _ _ _ _ E).
  - vm_compute in E. discriminate E.
Defined.

End StoredIndustries.
